(** * ClipboardManager

    A shallow embedding of [dist/clipboardmanager.js]: the three document-level
    clipboard handlers [OnCopy], [OnCut], [OnPaste] and the [OnClipboardChange]
    hook, written in a small monad that threads the mutable objects the
    handlers touch, can abort with a thrown [Error], its own or one that a
    target's method throws, and records every method call made on a
    collaborator or on the event. *)

From Stdlib Require Import String List Bool.
Import ListNotations.

Local Open Scope list_scope.
Local Open Scope string_scope.

(** ** JavaScript errors and completions *)

(** [new Error(message)]. *)
Inductive JsError : Type :=
| Error (message : string).

Definition message (e : JsError) : string :=
  match e with Error m => m end.

(** How a call ends: it returns a value, or a [throw] statement aborted it. *)
Inductive completion (A : Type) : Type :=
| Normal (a : A)
| Throw (e : JsError).

Arguments Normal {A} a.
Arguments Throw {A} e.

(** The strict inequality [a !== b] on two strings. *)
Definition strict_neq (a b : string) : bool := negb (String.eqb a b).

Infix "!==" := strict_neq (at level 65, no associativity).

(** The constants of [clipboarddict.js], which the handlers compare
    [event.type] with.  The module is imported, not defined, by
    [clipboardmanager.js]; its three strings are a parameter of the model. *)
Record ClipboardDict_t : Type := {
  Copy : string;
  Cut : string;
  Paste : string
}.

Section ClipboardManager.

(** Every JavaScript value except [null]; [option Value] is a value that may
    be [null] ([None]). *)
Context {Value : Type}.
(** The objects the selection manager hands out. *)
Context {Target : Type}.
(** Whatever the collaborators own besides the clipboard store: focus,
    selection, the content behind a clipboard-data handle. *)
Context {World : Type}.

(** A browser clipboard event, as far as the handlers read it.  Its
    [defaultPrevented] flag is mutable and lives in [State]. *)
Record ClipboardEvent : Type := {
  type : string;
  isTrusted : bool;
  clipboardData : option Value
}.

(** What a collaborator can read and write: [clipboardStore.Data] and its own
    state. *)
Record Heap : Type := {
  Data : option Value;
  world : World
}.

Record State : Type := {
  heap : Heap;
  defaultPrevented : bool
}.

(** [this.selectionManager]: three queries, each answering [null] or a
    target from what it reads; a query writes nothing. *)
Record SelectionManager : Type := {
  FindActiveCopyable : Heap -> option Target;
  FindActiveCuttable : Heap -> option Target;
  FindActivePasteContainer : Heap -> option Target
}.

(** The methods of a target.  Each receives its argument, may change the
    clipboard store and the collaborators' state, and then returns or throws;
    what it has changed stays changed when it throws. *)
Record Focusable : Type := {
  HandleCopy : Target -> option Value -> Heap -> completion unit * Heap;
  HandleCut : Target -> option Value -> Heap -> completion unit * Heap;
  HandlePaste : Target -> option Value -> Heap -> completion unit * Heap
}.

(** The method calls a handler makes, in the order it makes them. *)
Inductive Call : Type :=
| call_FindActiveCopyable
| call_FindActiveCuttable
| call_FindActivePasteContainer
| call_HandleCopy (target : Target) (clipboardData : option Value)
| call_HandleCut (target : Target) (clipboardData : option Value)
| call_HandlePaste (target : Target) (dataToUse : option Value)
| call_preventDefault.

(** ** The monad of a handler body

    A computation starts in a state and ends with a completion, the state it
    leaves, and the calls it made, oldest first.  A [throw] keeps the state
    and the calls made before it. *)

Definition M (A : Type) : Type := State -> completion A * State * list Call.

Definition ret {A : Type} (a : A) : M A :=
  fun st => (Normal a, st, []).

Definition throw {A : Type} (e : JsError) : M A :=
  fun st => (Throw e, st, []).

Definition bind {A B : Type} (m : M A) (k : A -> M B) : M B :=
  fun st =>
    match m st with
    | (Normal a, st1, calls1) =>
        match k a st1 with
        | (r, st2, calls2) => (r, st2, (calls1 ++ calls2)%list)
        end
    | (Throw e, st1, calls1) => (Throw e, st1, calls1)
    end.

Notation "'do' x <- m ; k" := (bind m (fun x => k))
  (at level 10, x name, m at level 100, k at level 200).
Notation "m ;; k" := (bind m (fun _ => k))
  (at level 100, k at level 200, right associativity).

(** [if (b) { m }] where [m] ends in [throw] or falls through. *)
Definition when (b : bool) (m : M unit) : M unit :=
  if b then m else ret tt.

(** [this.clipboardStore.Data], read. *)
Definition get_Data : M (option Value) :=
  fun st => (Normal (Data (heap st)), st, []).

(** [this.clipboardStore.Data = v]. *)
Definition set_Data (v : option Value) : M unit :=
  fun st =>
    (Normal tt,
     {| heap := {| Data := v; world := world (heap st) |};
        defaultPrevented := defaultPrevented st |},
     []).

(** [event.preventDefault()]; cut, copy and paste events are cancelable. *)
Definition preventDefault : M unit :=
  fun st =>
    (Normal tt,
     {| heap := heap st; defaultPrevented := true |},
     [call_preventDefault]).

(** A query of the selection manager. *)
Definition query (c : Call) (f : Heap -> option Target) : M (option Target) :=
  fun st => (Normal (f (heap st)), st, [c]).

(** A method call on a target.  The handlers wrap no call in [try]: what
    the method throws, the handler throws. *)
Definition invoke (c : Call) (f : Heap -> completion unit * Heap) : M unit :=
  fun st =>
    match f (heap st) with
    | (r, h) => (r, {| heap := h; defaultPrevented := defaultPrevented st |}, [c])
    end.

(** ** The handlers

    [ClipboardDict] is the imported module; [selectionManager] is the
    constructor's argument, [focusable] the methods of the objects it
    returns; [clipboardStore], the constructor's other argument, is the
    [Data] field of the heap. *)

Variable ClipboardDict : ClipboardDict_t.
Variable selectionManager : SelectionManager.
Variable focusable : Focusable.

Definition OnClipboardChange (event : ClipboardEvent) : M unit :=
  set_Data event.(clipboardData).

Definition OnCopy (event : ClipboardEvent) : M unit :=
  when (event.(type) !== ClipboardDict.(Copy))
    (throw (Error ("Cannot perform " ++ event.(type) ++ " action on copy"))) ;;
  when (negb event.(isTrusted))
    (throw (Error "All external clipboard events must be trusted.")) ;;
  do potentialCopy <-
    query call_FindActiveCopyable selectionManager.(FindActiveCopyable) ;
  match potentialCopy with
  | None => set_Data None
  | Some target =>
      invoke (call_HandleCopy target event.(clipboardData))
             (focusable.(HandleCopy) target event.(clipboardData)) ;;
      preventDefault
  end.

Definition OnCut (event : ClipboardEvent) : M unit :=
  when (event.(type) !== ClipboardDict.(Cut))
    (throw (Error ("Cannot perform " ++ event.(type) ++ " action on cut"))) ;;
  when (negb event.(isTrusted))
    (throw (Error "All external clipboard events must be trusted.")) ;;
  do potentialCut <-
    query call_FindActiveCuttable selectionManager.(FindActiveCuttable) ;
  match potentialCut with
  | None => set_Data None
  | Some target =>
      invoke (call_HandleCut target event.(clipboardData))
             (focusable.(HandleCut) target event.(clipboardData))
  end.

Definition OnPaste (event : ClipboardEvent) : M unit :=
  when (event.(type) !== ClipboardDict.(Paste))
    (throw (Error ("Cannot perform " ++ event.(type) ++ " action on paste"))) ;;
  when (negb event.(isTrusted))
    (throw (Error "All external clipboard events must be trusted.")) ;;
  do pasteContainer <-
    query call_FindActivePasteContainer
          selectionManager.(FindActivePasteContainer) ;
  match pasteContainer with
  | None => ret tt
  | Some target =>
      do stored <- get_Data ;
      do dataToUse <-
        match stored with
        | None =>
          do fromEvent <- ret event.(clipboardData) ;
          preventDefault ;;
          ret fromEvent
        | Some _ => get_Data
        end ;
      invoke (call_HandlePaste target dataToUse)
             (focusable.(HandlePaste) target dataToUse)
  end.

End ClipboardManager.

(** ** The two errors of the handlers, under the names the specification gives them *)

(** The error of the [isTrusted] check. *)
Definition UntrustedEvent : JsError :=
  Error "All external clipboard events must be trusted.".

(** The error of the [event.type] check of the handler of [action], for an
    event of type [kind]. *)
Definition ProtocolMismatch (kind action : string) : JsError :=
  Error ("Cannot perform " ++ kind ++ " action on " ++ action).

(** The message of [e] contains [kind]. *)
Definition names (e : JsError) (kind : string) : Prop :=
  exists before after : string, message e = before ++ kind ++ after.

(** ** A concrete page, to run the handlers on *)

Module Scenario.

(** The DOM names of the three events. *)
Definition dom_dict : ClipboardDict_t :=
  {| Copy := "copy"; Cut := "cut"; Paste := "paste" |}.

(** A selection manager that answers every query with [focus]. *)
Definition selection (focus : option string)
  : @SelectionManager string string (list string) :=
  {| FindActiveCopyable := fun _ => focus;
     FindActiveCuttable := fun _ => focus;
     FindActivePasteContainer := fun _ => focus |}.

(** Targets that are named by a string, keep a journal of what they were
    asked to do, and store their own name on copy and cut. *)
Definition shapes : @Focusable string string (list string) :=
  {| HandleCopy := fun target _ h =>
       (Normal tt,
        {| Data := Some target; world := ("copy " ++ target) :: world h |});
     HandleCut := fun target _ h =>
       (Normal tt,
        {| Data := Some target; world := ("cut " ++ target) :: world h |});
     HandlePaste := fun target dataToUse h =>
       (Normal tt,
        {| Data := Data h;
           world := match dataToUse with
                    | Some d => "paste " ++ d ++ " into " ++ target
                    | None => "paste nothing into " ++ target
                    end :: world h |}) |}.

(** Targets whose every method throws, having changed nothing. *)
Definition brittle : @Focusable string string (list string) :=
  {| HandleCopy := fun target _ h => (Throw (Error ("cannot copy " ++ target)), h);
     HandleCut := fun target _ h => (Throw (Error ("cannot cut " ++ target)), h);
     HandlePaste := fun target _ h =>
       (Throw (Error ("cannot paste into " ++ target)), h) |}.

Definition page (stored : option string) : @State string (list string) :=
  {| heap := {| Data := stored; world := [] |}; defaultPrevented := false |}.

Definition event_of (kind : string) (trusted : bool) (data : option string)
  : @ClipboardEvent string :=
  {| type := kind; isTrusted := trusted; clipboardData := data |}.

End Scenario.

(** ** The constructor's wiring *)

(** The event-handler properties of [document.documentElement] that the
    constructor assigns. *)
Inductive Slot : Type :=
| oncut
| onpaste
| oncopy.

(** The name of the property, as the constructor writes it. *)
Definition slot_name (slot : Slot) : string :=
  match slot with
  | oncut => "oncut"
  | onpaste => "onpaste"
  | oncopy => "oncopy"
  end.

Section Wiring.

Context {Value Target World : Type}.
Variable ClipboardDict : ClipboardDict_t.
Variable selectionManager : @SelectionManager Value Target World.
Variable focusable : @Focusable Value Target World.

(** [document.documentElement] once the constructor has run: [oncut] holds
    [OnCut], [onpaste] holds [OnPaste], [oncopy] holds [OnCopy], each bound to
    the manager. *)
Definition documentElement (slot : Slot)
  : @ClipboardEvent Value -> @M Value Target World unit :=
  match slot with
  | oncut => OnCut ClipboardDict selectionManager focusable
  | onpaste => OnPaste ClipboardDict selectionManager focusable
  | oncopy => OnCopy ClipboardDict selectionManager focusable
  end.

End Wiring.

(** ** A second page, where only pasting has a target *)

Module Canvas.

(** Nothing can be copied or cut; "canvas" accepts a paste. *)
Definition paste_only : @SelectionManager string string (list string) :=
  {| FindActiveCopyable := fun _ => None;
     FindActiveCuttable := fun _ => None;
     FindActivePasteContainer := fun _ => Some "canvas" |}.

End Canvas.

(** ** Properties *)

Notation "m ;; k" := (bind m (fun _ => k))
  (at level 100, k at level 200, right associativity).

Lemma strict_neq_false (a b : string) : a = b -> a !== b = false.
Proof.
  intros ->. unfold strict_neq. now rewrite String.eqb_refl.
Qed.

Lemma strict_neq_true (a b : string) : a <> b -> a !== b = true.
Proof.
  intros Hne. unfold strict_neq.
  destruct (String.eqb_spec a b) as [Heq | _]; [contradiction | reflexivity].
Qed.

Lemma strict_neq_spec (a b : string) :
  (a !== b = false /\ a = b) \/ (a !== b = true /\ a <> b).
Proof.
  unfold strict_neq.
  destruct (String.eqb_spec a b); [left | right]; split; auto.
Qed.

Lemma UntrustedEvent_not_ProtocolMismatch (kind action : string) :
  ProtocolMismatch kind action <> UntrustedEvent.
Proof.
  unfold ProtocolMismatch, UntrustedEvent. cbn. intros H. inversion H.
Qed.

Lemma ProtocolMismatch_names (kind action : string) :
  names (ProtocolMismatch kind action) kind.
Proof.
  exists "Cannot perform ", (" action on " ++ action). reflexivity.
Qed.

Section Guards.

Context {Value Target World : Type}.
Implicit Types (body : @M Value Target World unit) (e : JsError).

(** Every handler starts with the same two checks; what follows them only
    runs when both pass. *)
Lemma guarded_mismatch (untrusted : bool) e1 e2 body st :
  (when true (throw e1) ;; when untrusted (throw e2) ;; body) st
  = (Throw e1, st, []).
Proof. reflexivity. Qed.

Lemma guarded_untrusted e1 e2 body st :
  (when false (throw e1) ;; when true (throw e2) ;; body) st
  = (Throw e2, st, []).
Proof. reflexivity. Qed.

Lemma guarded_pass e1 e2 body st :
  (when false (throw e1) ;; when false (throw e2) ;; body) st = body st.
Proof.
  unfold bind, when, ret.
  destruct (body st) as [[r st'] calls]. reflexivity.
Qed.

End Guards.

Section Handlers.

Context {Value Target World : Type}.
Variable ClipboardDict : ClipboardDict_t.
Variable selectionManager : @SelectionManager Value Target World.
Variable focusable : @Focusable Value Target World.

Implicit Types (event : @ClipboardEvent Value) (st : @State Value World).

(** *** The handlers, branch by branch *)

Lemma OnCopy_outcome event st :
  OnCopy ClipboardDict selectionManager focusable event st
  = if event.(type) !== ClipboardDict.(Copy)
    then (Throw (ProtocolMismatch event.(type) "copy"), st, [])
    else if event.(isTrusted)
    then match selectionManager.(FindActiveCopyable) (heap st) with
         | None =>
             (Normal tt,
              {| heap := {| Data := None; world := world (heap st) |};
                 defaultPrevented := defaultPrevented st |},
              [call_FindActiveCopyable])
         | Some target =>
             let handled :=
               focusable.(HandleCopy) target event.(clipboardData) (heap st) in
             match fst handled with
             | Normal _ =>
                 (Normal tt,
                  {| heap := snd handled; defaultPrevented := true |},
                  [call_FindActiveCopyable;
                   call_HandleCopy target event.(clipboardData);
                   call_preventDefault])
             | Throw e =>
                 (Throw e,
                  {| heap := snd handled;
                     defaultPrevented := defaultPrevented st |},
                  [call_FindActiveCopyable;
                   call_HandleCopy target event.(clipboardData)])
             end
         end
    else (Throw UntrustedEvent, st, []).
Proof.
  unfold OnCopy.
  destruct (event.(type) !== ClipboardDict.(Copy)); [apply guarded_mismatch |].
  destruct event.(isTrusted); [| apply guarded_untrusted].
  cbn [negb]. rewrite guarded_pass. unfold bind, query, invoke.
  destruct (FindActiveCopyable selectionManager (heap st)) as [target |];
    [| reflexivity].
  cbn. destruct (HandleCopy focusable target (clipboardData event) (heap st))
    as [[[] | e] h]; reflexivity.
Qed.

Lemma OnCut_outcome event st :
  OnCut ClipboardDict selectionManager focusable event st
  = if event.(type) !== ClipboardDict.(Cut)
    then (Throw (ProtocolMismatch event.(type) "cut"), st, [])
    else if event.(isTrusted)
    then match selectionManager.(FindActiveCuttable) (heap st) with
         | None =>
             (Normal tt,
              {| heap := {| Data := None; world := world (heap st) |};
                 defaultPrevented := defaultPrevented st |},
              [call_FindActiveCuttable])
         | Some target =>
             let handled :=
               focusable.(HandleCut) target event.(clipboardData) (heap st) in
             (fst handled,
              {| heap := snd handled; defaultPrevented := defaultPrevented st |},
              [call_FindActiveCuttable;
               call_HandleCut target event.(clipboardData)])
         end
    else (Throw UntrustedEvent, st, []).
Proof.
  unfold OnCut.
  destruct (event.(type) !== ClipboardDict.(Cut)); [apply guarded_mismatch |].
  destruct event.(isTrusted); [| apply guarded_untrusted].
  cbn [negb]. rewrite guarded_pass. unfold bind, query, invoke.
  destruct (FindActiveCuttable selectionManager (heap st)) as [target |];
    [| reflexivity].
  cbn. destruct (HandleCut focusable target (clipboardData event) (heap st))
    as [r h]; reflexivity.
Qed.

Lemma OnPaste_outcome event st :
  OnPaste ClipboardDict selectionManager focusable event st
  = if event.(type) !== ClipboardDict.(Paste)
    then (Throw (ProtocolMismatch event.(type) "paste"), st, [])
    else if event.(isTrusted)
    then match selectionManager.(FindActivePasteContainer) (heap st) with
         | None => (Normal tt, st, [call_FindActivePasteContainer])
         | Some target =>
             match Data (heap st) with
             | None =>
                 let handled :=
                   focusable.(HandlePaste) target event.(clipboardData) (heap st) in
                 (fst handled,
                  {| heap := snd handled; defaultPrevented := true |},
                  [call_FindActivePasteContainer;
                   call_preventDefault;
                   call_HandlePaste target event.(clipboardData)])
             | Some V =>
                 let handled :=
                   focusable.(HandlePaste) target (Some V) (heap st) in
                 (fst handled,
                  {| heap := snd handled;
                     defaultPrevented := defaultPrevented st |},
                  [call_FindActivePasteContainer;
                   call_HandlePaste target (Some V)])
             end
         end
    else (Throw UntrustedEvent, st, []).
Proof.
  unfold OnPaste.
  destruct (event.(type) !== ClipboardDict.(Paste)); [apply guarded_mismatch |].
  destruct event.(isTrusted); [| apply guarded_untrusted].
  cbn [negb]. rewrite guarded_pass. unfold bind, query, get_Data, invoke.
  destruct (FindActivePasteContainer selectionManager (heap st)) as [target |];
    [| reflexivity].
  cbn. destruct (Data (heap st)) as [V |] eqn:Hstored; cbn.
  - rewrite Hstored. cbn.
    destruct (HandlePaste focusable target (Some V) (heap st)) as [r h].
    reflexivity.
  - destruct (HandlePaste focusable target (clipboardData event) (heap st))
      as [r h].
    reflexivity.
Qed.

(** *** The two checks, handler by handler *)

Lemma OnCopy_mismatch event st :
  event.(type) <> ClipboardDict.(Copy) ->
  OnCopy ClipboardDict selectionManager focusable event st
  = (Throw (ProtocolMismatch event.(type) "copy"), st, []).
Proof.
  intros Hkind. now rewrite OnCopy_outcome, (strict_neq_true _ _ Hkind).
Qed.

Lemma OnCut_mismatch event st :
  event.(type) <> ClipboardDict.(Cut) ->
  OnCut ClipboardDict selectionManager focusable event st
  = (Throw (ProtocolMismatch event.(type) "cut"), st, []).
Proof.
  intros Hkind. now rewrite OnCut_outcome, (strict_neq_true _ _ Hkind).
Qed.

Lemma OnPaste_mismatch event st :
  event.(type) <> ClipboardDict.(Paste) ->
  OnPaste ClipboardDict selectionManager focusable event st
  = (Throw (ProtocolMismatch event.(type) "paste"), st, []).
Proof.
  intros Hkind. now rewrite OnPaste_outcome, (strict_neq_true _ _ Hkind).
Qed.

Lemma OnCopy_untrusted event st :
  event.(type) = ClipboardDict.(Copy) ->
  event.(isTrusted) = false ->
  OnCopy ClipboardDict selectionManager focusable event st
  = (Throw UntrustedEvent, st, []).
Proof.
  intros Hkind Htrust.
  now rewrite OnCopy_outcome, (strict_neq_false _ _ Hkind), Htrust.
Qed.

Lemma OnCut_untrusted event st :
  event.(type) = ClipboardDict.(Cut) ->
  event.(isTrusted) = false ->
  OnCut ClipboardDict selectionManager focusable event st
  = (Throw UntrustedEvent, st, []).
Proof.
  intros Hkind Htrust.
  now rewrite OnCut_outcome, (strict_neq_false _ _ Hkind), Htrust.
Qed.

Lemma OnPaste_untrusted event st :
  event.(type) = ClipboardDict.(Paste) ->
  event.(isTrusted) = false ->
  OnPaste ClipboardDict selectionManager focusable event st
  = (Throw UntrustedEvent, st, []).
Proof.
  intros Hkind Htrust.
  now rewrite OnPaste_outcome, (strict_neq_false _ _ Hkind), Htrust.
Qed.




(** *** Paste *)

(** C1.  A trusted paste event with an active paste container.  When the
    store holds [null], [OnPaste] prevents the default action and hands the
    event's clipboard data to the container.  When the store holds a value
    [V], it hands [V] to the container, whatever the event carries, and does
    not prevent the default action.  Either way the call of the container is
    the last thing [OnPaste] does: it ends as that call ends. *)
Theorem OnPaste_prefers_stored_data event st container :
  event.(type) = ClipboardDict.(Paste) ->
  event.(isTrusted) = true ->
  selectionManager.(FindActivePasteContainer) (heap st) = Some container ->
  (Data (heap st) = None ->
     OnPaste ClipboardDict selectionManager focusable event st
     = (fst (focusable.(HandlePaste) container event.(clipboardData) (heap st)),
        {| heap := snd (focusable.(HandlePaste) container event.(clipboardData) (heap st));
           defaultPrevented := true |},
        [call_FindActivePasteContainer;
         call_preventDefault;
         call_HandlePaste container event.(clipboardData)]))
  /\ (forall V,
       Data (heap st) = Some V ->
       OnPaste ClipboardDict selectionManager focusable event st
       = (fst (focusable.(HandlePaste) container (Some V) (heap st)),
          {| heap := snd (focusable.(HandlePaste) container (Some V) (heap st));
             defaultPrevented := defaultPrevented st |},
          [call_FindActivePasteContainer;
           call_HandlePaste container (Some V)])).
Proof.
  intros Hkind Htrust Hfound.
  split; [intros Hstored | intros V Hstored];
    rewrite OnPaste_outcome, (strict_neq_false _ _ Hkind), Htrust, Hfound,
      Hstored;
    reflexivity.
Qed.

(** C8.  A trusted paste event with no active paste container: [OnPaste]
    returns having asked the selection manager and done nothing else.  No
    target is called, the default action is not prevented, the store is as
    it was. *)
Theorem OnPaste_without_container_does_nothing event st :
  event.(type) = ClipboardDict.(Paste) ->
  event.(isTrusted) = true ->
  selectionManager.(FindActivePasteContainer) (heap st) = None ->
  OnPaste ClipboardDict selectionManager focusable event st
  = (Normal tt, st, [call_FindActivePasteContainer]).
Proof.
  intros Hkind Htrust Hnone.
  now rewrite OnPaste_outcome, (strict_neq_false _ _ Hkind), Htrust, Hnone.
Qed.

(** *** Copy and cut *)

(** C5.  A trusted copy (cut) event for which the selection manager answers
    [null]: [OnCopy] ([OnCut]) sets the store to [null], whatever it held,
    calls no target and does not prevent the default action. *)
Theorem no_target_clears_the_store event st :
  event.(isTrusted) = true ->
  (event.(type) = ClipboardDict.(Copy) ->
   selectionManager.(FindActiveCopyable) (heap st) = None ->
   OnCopy ClipboardDict selectionManager focusable event st
   = (Normal tt,
      {| heap := {| Data := None; world := world (heap st) |};
         defaultPrevented := defaultPrevented st |},
      [call_FindActiveCopyable]))
  /\ (event.(type) = ClipboardDict.(Cut) ->
      selectionManager.(FindActiveCuttable) (heap st) = None ->
      OnCut ClipboardDict selectionManager focusable event st
      = (Normal tt,
         {| heap := {| Data := None; world := world (heap st) |};
            defaultPrevented := defaultPrevented st |},
         [call_FindActiveCuttable])).
Proof.
  intros Htrust. split; intros Hkind Hnone.
  - now rewrite OnCopy_outcome, (strict_neq_false _ _ Hkind), Htrust, Hnone.
  - now rewrite OnCut_outcome, (strict_neq_false _ _ Hkind), Htrust, Hnone.
Qed.

(** C6, amended.  A trusted copy event with an active copyable target:
    [OnCopy] calls the target's [HandleCopy] with the event's clipboard data.
    When that call returns, [OnCopy] then prevents the default action.  When
    it throws, [OnCopy] throws the same error there and then, and the default
    action is not prevented. *)
Theorem OnCopy_delegates_then_prevents_default event st target :
  event.(type) = ClipboardDict.(Copy) ->
  event.(isTrusted) = true ->
  selectionManager.(FindActiveCopyable) (heap st) = Some target ->
  (forall h,
      focusable.(HandleCopy) target event.(clipboardData) (heap st)
      = (Normal tt, h) ->
      OnCopy ClipboardDict selectionManager focusable event st
      = (Normal tt,
         {| heap := h; defaultPrevented := true |},
         [call_FindActiveCopyable;
          call_HandleCopy target event.(clipboardData);
          call_preventDefault]))
  /\ (forall e h,
        focusable.(HandleCopy) target event.(clipboardData) (heap st)
        = (Throw e, h) ->
        OnCopy ClipboardDict selectionManager focusable event st
        = (Throw e,
           {| heap := h; defaultPrevented := defaultPrevented st |},
           [call_FindActiveCopyable;
            call_HandleCopy target event.(clipboardData)])).
Proof.
  intros Hkind Htrust Hfound.
  split; [intros h Hhandled | intros e h Hhandled];
    rewrite OnCopy_outcome, (strict_neq_false _ _ Hkind), Htrust, Hfound;
    cbv zeta; rewrite Hhandled; reflexivity.
Qed.

(** C7.  A trusted cut event with an active cuttable target: [OnCut] calls
    the target's [HandleCut] with the event's clipboard data and does not
    prevent the default action.  The call is the last thing [OnCut] does: it
    ends as that call ends. *)
Theorem OnCut_delegates_and_keeps_default event st target :
  event.(type) = ClipboardDict.(Cut) ->
  event.(isTrusted) = true ->
  selectionManager.(FindActiveCuttable) (heap st) = Some target ->
  OnCut ClipboardDict selectionManager focusable event st
  = (fst (focusable.(HandleCut) target event.(clipboardData) (heap st)),
     {| heap := snd (focusable.(HandleCut) target event.(clipboardData) (heap st));
        defaultPrevented := defaultPrevented st |},
     [call_FindActiveCuttable;
      call_HandleCut target event.(clipboardData)]).
Proof.
  intros Hkind Htrust Hfound.
  now rewrite OnCut_outcome, (strict_neq_false _ _ Hkind), Htrust, Hfound.
Qed.

(** *** Rejected events *)

(** C4.  An event whose type is not the one a handler compares it with makes
    that handler throw the error whose message names the event's type; the
    state, the store in it, is untouched and nothing has been called. *)
Theorem mismatched_kind_is_rejected event st :
  (event.(type) <> ClipboardDict.(Copy) ->
   OnCopy ClipboardDict selectionManager focusable event st
   = (Throw (ProtocolMismatch event.(type) "copy"), st, []))
  /\ (event.(type) <> ClipboardDict.(Cut) ->
      OnCut ClipboardDict selectionManager focusable event st
      = (Throw (ProtocolMismatch event.(type) "cut"), st, []))
  /\ (event.(type) <> ClipboardDict.(Paste) ->
      OnPaste ClipboardDict selectionManager focusable event st
      = (Throw (ProtocolMismatch event.(type) "paste"), st, []))
  /\ (forall action, names (ProtocolMismatch event.(type) action) event.(type)).
Proof.
  repeat split.
  - apply OnCopy_mismatch.
  - apply OnCut_mismatch.
  - apply OnPaste_mismatch.
  - intros action. apply ProtocolMismatch_names.
Qed.

(** C3.  The type of the event is checked before [isTrusted]: an untrusted
    event of the wrong type makes a handler throw the error about the type,
    which is not the error about trust. *)
Theorem kind_is_checked_before_trust event st :
  event.(isTrusted) = false ->
  (event.(type) <> ClipboardDict.(Copy) ->
   OnCopy ClipboardDict selectionManager focusable event st
   = (Throw (ProtocolMismatch event.(type) "copy"), st, [])
   /\ ProtocolMismatch event.(type) "copy" <> UntrustedEvent)
  /\ (event.(type) <> ClipboardDict.(Cut) ->
      OnCut ClipboardDict selectionManager focusable event st
      = (Throw (ProtocolMismatch event.(type) "cut"), st, [])
      /\ ProtocolMismatch event.(type) "cut" <> UntrustedEvent)
  /\ (event.(type) <> ClipboardDict.(Paste) ->
      OnPaste ClipboardDict selectionManager focusable event st
      = (Throw (ProtocolMismatch event.(type) "paste"), st, [])
      /\ ProtocolMismatch event.(type) "paste" <> UntrustedEvent).
Proof.
  intros _.
  repeat split;
    auto using OnCopy_mismatch, OnCut_mismatch, OnPaste_mismatch,
               UntrustedEvent_not_ProtocolMismatch.
Qed.

(** C2, amended.  An untrusted event makes each handler throw, with the
    state, the store in it, untouched and nothing called.  The error is
    [UntrustedEvent] when the event's type is the one the handler expects;
    otherwise it is the error about the type, which is checked first. *)
Theorem untrusted_event_is_rejected event st :
  event.(isTrusted) = false ->
  ((event.(type) = ClipboardDict.(Copy) ->
    OnCopy ClipboardDict selectionManager focusable event st
    = (Throw UntrustedEvent, st, []))
   /\ (event.(type) <> ClipboardDict.(Copy) ->
       OnCopy ClipboardDict selectionManager focusable event st
       = (Throw (ProtocolMismatch event.(type) "copy"), st, [])))
  /\ ((event.(type) = ClipboardDict.(Cut) ->
       OnCut ClipboardDict selectionManager focusable event st
       = (Throw UntrustedEvent, st, []))
      /\ (event.(type) <> ClipboardDict.(Cut) ->
          OnCut ClipboardDict selectionManager focusable event st
          = (Throw (ProtocolMismatch event.(type) "cut"), st, [])))
  /\ ((event.(type) = ClipboardDict.(Paste) ->
       OnPaste ClipboardDict selectionManager focusable event st
       = (Throw UntrustedEvent, st, []))
      /\ (event.(type) <> ClipboardDict.(Paste) ->
          OnPaste ClipboardDict selectionManager focusable event st
          = (Throw (ProtocolMismatch event.(type) "paste"), st, []))).
Proof.
  intros Htrust. split; [| split]; split; intros Hkind.
  - now apply OnCopy_untrusted.
  - now apply OnCopy_mismatch.
  - now apply OnCut_untrusted.
  - now apply OnCut_mismatch.
  - now apply OnPaste_untrusted.
  - now apply OnPaste_mismatch.
Qed.


End Handlers.

Section Hook.

Context {Value Target World : Type}.

(** C10.  [OnClipboardChange] stores the event's clipboard data, whatever
    the event's type and trust and whatever the store held; a second call
    with an event carrying the same data leaves the state the first call
    produced. *)
Theorem OnClipboardChange_overwrites_idempotently
        (data : option Value) (kind1 kind2 : string) (trusted1 trusted2 : bool)
        (st : @State Value World) :
  let first := {| type := kind1; isTrusted := trusted1; clipboardData := data |} in
  let second := {| type := kind2; isTrusted := trusted2; clipboardData := data |} in
  let once := {| heap := {| Data := data; world := world (heap st) |};
                 defaultPrevented := defaultPrevented st |} in
  @OnClipboardChange Value Target World first st = (Normal tt, once, [])
  /\ Data (heap once) = data
  /\ (@OnClipboardChange Value Target World first ;;
      OnClipboardChange second) st
     = (Normal tt, once, []).
Proof.
  intros first second once. repeat split.
Qed.

End Hook.

(** ** The theorems at work on the concrete page *)

Module Run.

Import Scenario.

(** Paste into "canvas" while the store holds "V" and the event carries
    "D": the canvas receives "V" and the default action stays. *)
Lemma OnPaste_prefers_stored_data_witness :
  let event := event_of "paste" true (Some "D") in
  let st := page (Some "V") in
  (type event = Paste dom_dict
   /\ isTrusted event = true
   /\ FindActivePasteContainer (selection (Some "canvas")) (heap st) = Some "canvas"
   /\ Data (heap st) = Some "V")
  /\ OnPaste dom_dict (selection (Some "canvas")) shapes event st
     = (Normal tt,
        {| heap := {| Data := Some "V"; world := ["paste V into canvas"] |};
           defaultPrevented := false |},
        [call_FindActivePasteContainer; call_HandlePaste "canvas" (Some "V")]).
Proof.
  intros event st. split; [repeat split |].
  apply (proj2 (OnPaste_prefers_stored_data
                  dom_dict (selection (Some "canvas")) shapes event st "canvas"
                  eq_refl eq_refl eq_refl) "V").
  reflexivity.
Defined.

Lemma OnPaste_without_container_does_nothing_witness :
  let event := event_of "paste" true (Some "D") in
  let st := page (Some "V") in
  (type event = Paste dom_dict
   /\ isTrusted event = true
   /\ FindActivePasteContainer (selection None) (heap st) = None)
  /\ OnPaste dom_dict (selection None) shapes event st
     = (Normal tt, st, [call_FindActivePasteContainer]).
Proof.
  intros event st. split; [repeat split |].
  apply (OnPaste_without_container_does_nothing
           dom_dict (selection None) shapes event st);
    reflexivity.
Defined.

Lemma no_target_clears_the_store_witness :
  let copy := event_of "copy" true (Some "D") in
  let cut := event_of "cut" true (Some "D") in
  let st := page (Some "V") in
  let cleared := page None in
  (isTrusted copy = true /\ type copy = Copy dom_dict
   /\ FindActiveCopyable (selection None) (heap st) = None)
  /\ (isTrusted cut = true /\ type cut = Cut dom_dict
      /\ FindActiveCuttable (selection None) (heap st) = None)
  /\ OnCopy dom_dict (selection None) shapes copy st
     = (Normal tt, cleared, [call_FindActiveCopyable])
  /\ OnCut dom_dict (selection None) shapes cut st
     = (Normal tt, cleared, [call_FindActiveCuttable]).
Proof.
  intros copy cut st cleared.
  split; [repeat split | split; [repeat split | split]].
  - apply (proj1 (no_target_clears_the_store
                    dom_dict (selection None) shapes copy st eq_refl));
      reflexivity.
  - apply (proj2 (no_target_clears_the_store
                    dom_dict (selection None) shapes cut st eq_refl));
      reflexivity.
Defined.

(** Copying the circle: its method returns, and the default action is
    prevented after it; the method of a brittle circle throws, and it is
    not. *)
Lemma OnCopy_delegates_then_prevents_default_witness :
  let event := event_of "copy" true (Some "D") in
  let st := page None in
  let copied := {| Data := Some "circle"; world := ["copy circle"] |} in
  (type event = Copy dom_dict
   /\ isTrusted event = true
   /\ FindActiveCopyable (selection (Some "circle")) (heap st) = Some "circle"
   /\ HandleCopy shapes "circle" (clipboardData event) (heap st)
      = (Normal tt, copied)
   /\ HandleCopy brittle "circle" (clipboardData event) (heap st)
      = (Throw (Error "cannot copy circle"), heap st))
  /\ OnCopy dom_dict (selection (Some "circle")) shapes event st
     = (Normal tt,
        {| heap := copied; defaultPrevented := true |},
        [call_FindActiveCopyable;
         call_HandleCopy "circle" (Some "D");
         call_preventDefault])
  /\ OnCopy dom_dict (selection (Some "circle")) brittle event st
     = (Throw (Error "cannot copy circle"),
        st,
        [call_FindActiveCopyable; call_HandleCopy "circle" (Some "D")]).
Proof.
  intros event st copied. split; [repeat split |]. split.
  - apply (proj1 (OnCopy_delegates_then_prevents_default
                    dom_dict (selection (Some "circle")) shapes event st "circle"
                    eq_refl eq_refl eq_refl)).
    reflexivity.
  - apply (proj2 (OnCopy_delegates_then_prevents_default
                    dom_dict (selection (Some "circle")) brittle event st "circle"
                    eq_refl eq_refl eq_refl)
                 (Error "cannot copy circle") (heap st)).
    reflexivity.
Defined.

(** C6 as it was stated fails here: the event is a trusted copy, the circle
    is active, [OnCopy] has called its method, and the default action is not
    prevented, because the method threw. *)
Lemma OnCopy_throwing_target_counterexample :
  let event := event_of "copy" true (Some "D") in
  let st := page None in
  let outcome := OnCopy dom_dict (selection (Some "circle")) brittle event st in
  (type event = Copy dom_dict
   /\ isTrusted event = true
   /\ FindActiveCopyable (selection (Some "circle")) (heap st) = Some "circle")
  /\ outcome
     = (Throw (Error "cannot copy circle"),
        st,
        [call_FindActiveCopyable; call_HandleCopy "circle" (Some "D")])
  /\ defaultPrevented (snd (fst outcome)) = false
  /\ (In call_preventDefault (snd outcome) -> False).
Proof.
  intros event st outcome.
  split; [repeat split |]. split; [reflexivity |]. split; [reflexivity |].
  cbn. intros [H | [H | []]]; discriminate H.
Qed.

Lemma OnCut_delegates_and_keeps_default_witness :
  let event := event_of "cut" true (Some "D") in
  let st := page None in
  (type event = Cut dom_dict
   /\ isTrusted event = true
   /\ FindActiveCuttable (selection (Some "circle")) (heap st) = Some "circle")
  /\ OnCut dom_dict (selection (Some "circle")) shapes event st
     = (Normal tt,
        {| heap := {| Data := Some "circle"; world := ["cut circle"] |};
           defaultPrevented := false |},
        [call_FindActiveCuttable; call_HandleCut "circle" (Some "D")]).
Proof.
  intros event st. split; [repeat split |].
  apply (OnCut_delegates_and_keeps_default
           dom_dict (selection (Some "circle")) shapes event st "circle");
    reflexivity.
Defined.

(** A paste event delivered to each of the other two handlers, and a copy
    event delivered to [OnPaste]. *)
Lemma mismatched_kind_is_rejected_witness :
  let paste := event_of "paste" true (Some "D") in
  let copy := event_of "copy" true (Some "D") in
  let st := page (Some "V") in
  (type paste <> Copy dom_dict /\ type paste <> Cut dom_dict
   /\ type copy <> Paste dom_dict)
  /\ OnCopy dom_dict (selection (Some "circle")) shapes paste st
     = (Throw (Error "Cannot perform paste action on copy"), st, [])
  /\ OnCut dom_dict (selection (Some "circle")) shapes paste st
     = (Throw (Error "Cannot perform paste action on cut"), st, [])
  /\ OnPaste dom_dict (selection (Some "circle")) shapes copy st
     = (Throw (Error "Cannot perform copy action on paste"), st, []).
Proof.
  intros paste copy st.
  pose proof (mismatched_kind_is_rejected
                dom_dict (selection (Some "circle")) shapes paste st)
    as (Hcopy & Hcut & _ & _).
  pose proof (mismatched_kind_is_rejected
                dom_dict (selection (Some "circle")) shapes copy st)
    as (_ & _ & Hpaste & _).
  split; [repeat split; discriminate | split; [| split]].
  - apply Hcopy. discriminate.
  - apply Hcut. discriminate.
  - apply Hpaste. discriminate.
Defined.

Lemma kind_is_checked_before_trust_witness :
  let event := event_of "paste" false (Some "D") in
  let st := page (Some "V") in
  (isTrusted event = false /\ type event <> Copy dom_dict)
  /\ OnCopy dom_dict (selection (Some "circle")) shapes event st
     = (Throw (Error "Cannot perform paste action on copy"), st, [])
  /\ Error "Cannot perform paste action on copy" <> UntrustedEvent.
Proof.
  intros event st. split; [split; [reflexivity | discriminate] |].
  apply (proj1 (kind_is_checked_before_trust
                  dom_dict (selection (Some "circle")) shapes event st eq_refl)).
  discriminate.
Defined.

(** C2 as it was stated fails here: the event is untrusted, and [OnCopy]
    throws the error about its type, not [UntrustedEvent]. *)
Lemma untrusted_mismatched_kind_counterexample :
  let event := event_of "paste" false (Some "D") in
  let st := page (Some "V") in
  isTrusted event = false
  /\ OnCopy dom_dict (selection (Some "circle")) shapes event st
     = (Throw (Error "Cannot perform paste action on copy"), st, [])
  /\ OnCopy dom_dict (selection (Some "circle")) shapes event st
     <> (Throw UntrustedEvent, st, []).
Proof.
  intros event st. split; [reflexivity | split; [reflexivity |]].
  cbn. intros Hsame. inversion Hsame.
Qed.

Lemma untrusted_event_is_rejected_witness :
  let copy := event_of "copy" false (Some "D") in
  let cut := event_of "cut" false (Some "D") in
  let paste := event_of "paste" false (Some "D") in
  let st := page (Some "V") in
  (isTrusted copy = false /\ type copy = Copy dom_dict)
  /\ (isTrusted cut = false /\ type cut = Cut dom_dict)
  /\ (isTrusted paste = false /\ type paste = Paste dom_dict)
  /\ OnCopy dom_dict (selection (Some "circle")) shapes copy st
     = (Throw UntrustedEvent, st, [])
  /\ OnCut dom_dict (selection (Some "circle")) shapes cut st
     = (Throw UntrustedEvent, st, [])
  /\ OnPaste dom_dict (selection (Some "circle")) shapes paste st
     = (Throw UntrustedEvent, st, []).
Proof.
  intros copy cut paste st.
  pose proof (untrusted_event_is_rejected
                dom_dict (selection (Some "circle")) shapes copy st eq_refl)
    as ((Hcopy & _) & _ & _).
  pose proof (untrusted_event_is_rejected
                dom_dict (selection (Some "circle")) shapes cut st eq_refl)
    as (_ & (Hcut & _) & _).
  pose proof (untrusted_event_is_rejected
                dom_dict (selection (Some "circle")) shapes paste st eq_refl)
    as (_ & _ & (Hpaste & _)).
  split; [split; reflexivity |].
  split; [split; reflexivity |].
  split; [split; reflexivity |].
  split; [| split].
  - apply Hcopy. reflexivity.
  - apply Hcut. reflexivity.
  - apply Hpaste. reflexivity.
Defined.



End Run.

(** ** Every event, every state: what the handlers do and never do *)

Section Outcomes.

Context {Value Target World : Type}.
Variable ClipboardDict : ClipboardDict_t.
Variable selectionManager : @SelectionManager Value Target World.
Variable focusable : @Focusable Value Target World.

Implicit Types (event : @ClipboardEvent Value) (st : @State Value World).

(** Destructs the two checks of a handler and the answer of its query, once
    the handler has been rewritten into its branches. *)
Ltac branches event kind found :=
  destruct (strict_neq_spec event.(type) kind) as [[-> ?] | [-> ?]];
  [destruct event.(isTrusted) eqn:?; [destruct found eqn:? |] |];
  cbn.


(** X2.  [OnCut] never prevents the default action: for every event and
    every state, the flag ends as it started and [preventDefault] is not
    among the calls. *)
Theorem OnCut_never_prevents_default event st :
  let '(_, st', calls) := OnCut ClipboardDict selectionManager focusable event st in
  defaultPrevented st' = defaultPrevented st
  /\ ~ In call_preventDefault calls.
Proof.
  rewrite OnCut_outcome.
  branches event ClipboardDict.(Cut)
           (selectionManager.(FindActiveCuttable) (heap st));
    intuition (try discriminate).
Qed.

(** X3.  [OnCopy] prevents the default action exactly when a target has
    handled the copy: the event has the expected type, is trusted, the
    selection manager answered a target and its [HandleCopy] returned.  The
    flag is then [true]; in every other case, a [HandleCopy] that throws
    among them, it is left as it was. *)
Theorem OnCopy_prevents_default_iff_delegated event st :
  let '(_, st', calls) := OnCopy ClipboardDict selectionManager focusable event st in
  (In call_preventDefault calls
   <-> event.(type) = ClipboardDict.(Copy)
       /\ event.(isTrusted) = true
       /\ exists target,
           selectionManager.(FindActiveCopyable) (heap st) = Some target
           /\ fst (focusable.(HandleCopy) target event.(clipboardData) (heap st))
              = Normal tt)
  /\ (In call_preventDefault calls -> defaultPrevented st' = true)
  /\ (~ In call_preventDefault calls ->
      defaultPrevented st' = defaultPrevented st).
Proof.
  rewrite OnCopy_outcome.
  branches event ClipboardDict.(Copy)
           (selectionManager.(FindActiveCopyable) (heap st)).
  - destruct (fst (HandleCopy focusable t (clipboardData event) (heap st)))
      as [[] | e] eqn:Hhandled; cbn.
    + intuition eauto.
    + repeat split; try solve [intuition discriminate].
      intros (_ & _ & target & Hfound & Hreturns).
      assert (target = t) by congruence. subst. congruence.
  - repeat split; try solve [intuition discriminate].
    intros (_ & _ & target & Hfound & _). discriminate.
  - intuition discriminate.
  - intuition.
Qed.

(** X4.  [OnPaste] prevents the default action exactly when it pastes the
    event's own data: the event is accepted, a container is active, and the
    store holds [null].  The flag is then [true]; in every other case it is
    left as it was. *)
Theorem OnPaste_prevents_default_iff_store_is_null event st :
  let '(_, st', calls) := OnPaste ClipboardDict selectionManager focusable event st in
  (In call_preventDefault calls
   <-> event.(type) = ClipboardDict.(Paste)
       /\ event.(isTrusted) = true
       /\ selectionManager.(FindActivePasteContainer) (heap st) <> None
       /\ Data (heap st) = None)
  /\ (In call_preventDefault calls -> defaultPrevented st' = true)
  /\ (~ In call_preventDefault calls ->
      defaultPrevented st' = defaultPrevented st).
Proof.
  rewrite OnPaste_outcome.
  branches event ClipboardDict.(Paste)
           (selectionManager.(FindActivePasteContainer) (heap st));
    try destruct (Data (heap st)) eqn:?; cbn;
    intuition (try discriminate; try congruence).
Qed.

(** X5.  [OnPaste] never assigns the store itself: when the targets' paste
    method leaves [Data] alone, so does [OnPaste], for every event and every
    state. *)
Theorem OnPaste_keeps_the_store event st :
  (forall target dataToUse h,
      Data (snd (focusable.(HandlePaste) target dataToUse h)) = Data h) ->
  let '(_, st', _) := OnPaste ClipboardDict selectionManager focusable event st in
  Data (heap st') = Data (heap st).
Proof.
  intros Hkeeps. rewrite OnPaste_outcome.
  branches event ClipboardDict.(Paste)
           (selectionManager.(FindActivePasteContainer) (heap st));
    try destruct (Data (heap st)) eqn:Hstored; cbn;
    rewrite ?Hkeeps; auto.
Qed.

(** X6.  A container is handed [null] only when there was nothing to paste at
    all: the store holds [null] and so does the event's [clipboardData]. *)
Theorem OnPaste_hands_null_only_when_both_are_null event st target :
  In (call_HandlePaste target None)
     (snd (OnPaste ClipboardDict selectionManager focusable event st)) ->
  Data (heap st) = None /\ event.(clipboardData) = None.
Proof.
  rewrite OnPaste_outcome.
  branches event ClipboardDict.(Paste)
           (selectionManager.(FindActivePasteContainer) (heap st));
    try destruct (Data (heap st)) eqn:Hstored; cbn;
    intuition (try discriminate).
  match goal with H : call_HandlePaste _ _ = _ |- _ => inversion H end.
  reflexivity.
Qed.

(** X7.  The calls of a handler, for every event and every state.  A
    rejected event leads to no call.  An accepted one leads to the handler's
    own question to the selection manager; on the answer [null] nothing
    follows; on a target, one call of the handler's own method on that target
    follows.  [OnCopy] and [OnCut] pass the event's clipboard data; [OnPaste]
    passes the stored value when there is one, and otherwise the event's
    data, after [preventDefault].  [OnCopy] calls [preventDefault] last, and
    only when the target's method has returned. *)
Theorem handler_call_sequences event st :
  (let calls := snd (OnCopy ClipboardDict selectionManager focusable event st) in
   (event.(type) <> ClipboardDict.(Copy) \/ event.(isTrusted) = false ->
    calls = [])
   /\ (event.(type) = ClipboardDict.(Copy) ->
       event.(isTrusted) = true ->
       match selectionManager.(FindActiveCopyable) (heap st) with
       | None => calls = [call_FindActiveCopyable]
       | Some target =>
           calls
           = ([call_FindActiveCopyable;
               call_HandleCopy target event.(clipboardData)]
              ++ match fst (focusable.(HandleCopy) target
                              event.(clipboardData) (heap st)) with
                 | Normal _ => [call_preventDefault]
                 | Throw _ => []
                 end)%list
       end))
  /\ (let calls := snd (OnCut ClipboardDict selectionManager focusable event st) in
      (event.(type) <> ClipboardDict.(Cut) \/ event.(isTrusted) = false ->
       calls = [])
      /\ (event.(type) = ClipboardDict.(Cut) ->
          event.(isTrusted) = true ->
          match selectionManager.(FindActiveCuttable) (heap st) with
          | None => calls = [call_FindActiveCuttable]
          | Some target =>
              calls = [call_FindActiveCuttable;
                       call_HandleCut target event.(clipboardData)]
          end))
  /\ (let calls := snd (OnPaste ClipboardDict selectionManager focusable event st) in
      (event.(type) <> ClipboardDict.(Paste) \/ event.(isTrusted) = false ->
       calls = [])
      /\ (event.(type) = ClipboardDict.(Paste) ->
          event.(isTrusted) = true ->
          match selectionManager.(FindActivePasteContainer) (heap st),
                Data (heap st) with
          | None, _ => calls = [call_FindActivePasteContainer]
          | Some target, None =>
              calls = [call_FindActivePasteContainer;
                       call_preventDefault;
                       call_HandlePaste target event.(clipboardData)]
          | Some target, Some V =>
              calls = [call_FindActivePasteContainer;
                       call_HandlePaste target (Some V)]
          end)).
Proof.
  split; [| split]; cbv zeta.
  - rewrite OnCopy_outcome.
    branches event ClipboardDict.(Copy)
             (selectionManager.(FindActiveCopyable) (heap st));
      try solve [intuition (try discriminate; try congruence)].
    destruct (fst (HandleCopy focusable t (clipboardData event) (heap st)))
      as [[] | e]; cbn; intuition (try discriminate; try congruence).
  - rewrite OnCut_outcome.
    branches event ClipboardDict.(Cut)
             (selectionManager.(FindActiveCuttable) (heap st));
      intuition (try discriminate; try congruence).
  - rewrite OnPaste_outcome.
    branches event ClipboardDict.(Paste)
             (selectionManager.(FindActivePasteContainer) (heap st));
      try destruct (Data (heap st)); cbn;
      intuition (try discriminate; try congruence).
Qed.

End Outcomes.

(** ** One handler after another *)

Section Sequences.

Context {Value Target World : Type}.
Variable ClipboardDict : ClipboardDict_t.
Variable selectionManager : @SelectionManager Value Target World.
Variable focusable : @Focusable Value Target World.

Implicit Types (event first paste change : @ClipboardEvent Value).
Implicit Types (st : @State Value World).

(** X8.  A copy or a cut that finds no target, followed by a paste that finds
    a container: whatever the store held before, the container is handed the
    paste event's own clipboard data, after the default action of the paste
    has been prevented; the sequence ends as the container's method ends. *)
Theorem paste_after_a_copy_or_cut_without_target first paste st container :
  first.(isTrusted) = true ->
  paste.(type) = ClipboardDict.(Paste) ->
  paste.(isTrusted) = true ->
  selectionManager.(FindActivePasteContainer)
    {| Data := None; world := world (heap st) |} = Some container ->
  let handled :=
    focusable.(HandlePaste) container paste.(clipboardData)
      {| Data := None; world := world (heap st) |} in
  (first.(type) = ClipboardDict.(Copy) ->
   selectionManager.(FindActiveCopyable) (heap st) = None ->
   (OnCopy ClipboardDict selectionManager focusable first ;;
    OnPaste ClipboardDict selectionManager focusable paste) st
   = (fst handled,
      {| heap := snd handled; defaultPrevented := true |},
      [call_FindActiveCopyable;
       call_FindActivePasteContainer;
       call_preventDefault;
       call_HandlePaste container paste.(clipboardData)]))
  /\ (first.(type) = ClipboardDict.(Cut) ->
      selectionManager.(FindActiveCuttable) (heap st) = None ->
      (OnCut ClipboardDict selectionManager focusable first ;;
       OnPaste ClipboardDict selectionManager focusable paste) st
      = (fst handled,
         {| heap := snd handled; defaultPrevented := true |},
         [call_FindActiveCuttable;
          call_FindActivePasteContainer;
          call_preventDefault;
          call_HandlePaste container paste.(clipboardData)])).
Proof.
  intros Htrust Hpaste Hpaste_trust Hcontainer handled.
  split; intros Hkind Hnone; unfold bind.
  - rewrite OnCopy_outcome, (strict_neq_false _ _ Hkind), Htrust, Hnone.
    rewrite OnPaste_outcome, (strict_neq_false _ _ Hpaste), Hpaste_trust.
    cbn. rewrite Hcontainer. reflexivity.
  - rewrite OnCut_outcome, (strict_neq_false _ _ Hkind), Htrust, Hnone.
    rewrite OnPaste_outcome, (strict_neq_false _ _ Hpaste), Hpaste_trust.
    cbn. rewrite Hcontainer. reflexivity.
Qed.

(** X9.  [OnClipboardChange] followed by a paste that finds a container.
    When the change carried a value, the container is handed that value, not
    the paste event's data, and the default action stays; when the change
    carried [null], the container is handed the paste event's data, after
    the default action has been prevented.  The sequence ends as the
    container's method ends. *)
Theorem paste_after_clipboard_change change paste st container :
  paste.(type) = ClipboardDict.(Paste) ->
  paste.(isTrusted) = true ->
  selectionManager.(FindActivePasteContainer)
    {| Data := change.(clipboardData); world := world (heap st) |}
  = Some container ->
  (OnClipboardChange change ;;
   OnPaste ClipboardDict selectionManager focusable paste) st
  = match change.(clipboardData) with
    | Some V =>
        let handled :=
          focusable.(HandlePaste) container (Some V)
            {| Data := Some V; world := world (heap st) |} in
        (fst handled,
         {| heap := snd handled; defaultPrevented := defaultPrevented st |},
         [call_FindActivePasteContainer;
          call_HandlePaste container (Some V)])
    | None =>
        let handled :=
          focusable.(HandlePaste) container paste.(clipboardData)
            {| Data := None; world := world (heap st) |} in
        (fst handled,
         {| heap := snd handled; defaultPrevented := true |},
         [call_FindActivePasteContainer;
          call_preventDefault;
          call_HandlePaste container paste.(clipboardData)])
    end.
Proof.
  intros Hpaste Hpaste_trust Hcontainer.
  unfold bind, OnClipboardChange, set_Data.
  rewrite OnPaste_outcome, (strict_neq_false _ _ Hpaste), Hpaste_trust.
  cbn. rewrite Hcontainer.
  destruct change.(clipboardData); reflexivity.
Qed.


(** X11.  Of two clipboard changes the later one wins: after both, the state
    is the one the second alone would have produced, and nothing of the
    first event's data remains. *)
Theorem later_clipboard_change_wins first change st :
  (@OnClipboardChange Value Target World first ;; OnClipboardChange change) st
  = @OnClipboardChange Value Target World change st.
Proof.
  reflexivity.
Qed.

(** X12.  The constructor puts each handler in the slot of its own event.
    With the DOM names in [ClipboardDict], an event that reaches a slot
    through the slot's name, [on] followed by the event's type, is never
    rejected for its type: when it is trusted the handler goes on to ask the
    selection manager its question, and when it is not the handler throws
    [UntrustedEvent]. *)
Theorem wired_handlers_get_their_own_events slot event st :
  ClipboardDict.(Copy) = "copy" ->
  ClipboardDict.(Cut) = "cut" ->
  ClipboardDict.(Paste) = "paste" ->
  slot_name slot = "on" ++ event.(type) ->
  (event.(isTrusted) = true ->
   exists rest,
     snd (documentElement ClipboardDict selectionManager focusable slot event st)
     = match slot with
       | oncut => call_FindActiveCuttable
       | onpaste => call_FindActivePasteContainer
       | oncopy => call_FindActiveCopyable
       end :: rest)
  /\ (event.(isTrusted) = false ->
      documentElement ClipboardDict selectionManager focusable slot event st
      = (Throw UntrustedEvent, st, [])).
Proof.
  intros Hcopy Hcut Hpaste Hname.
  destruct slot; cbn in Hname; inversion Hname as [Hkind]; symmetry in Hkind;
    unfold documentElement; split; intros Htrust.
  - rewrite OnCut_outcome, (strict_neq_false _ ClipboardDict.(Cut)), Htrust
      by congruence.
    destruct (FindActiveCuttable selectionManager (heap st)); cbn; eauto.
  - apply OnCut_untrusted; congruence.
  - rewrite OnPaste_outcome, (strict_neq_false _ ClipboardDict.(Paste)), Htrust
      by congruence.
    destruct (FindActivePasteContainer selectionManager (heap st));
      [destruct (Data (heap st)) |]; cbn; eauto.
  - apply OnPaste_untrusted; congruence.
  - rewrite OnCopy_outcome, (strict_neq_false _ ClipboardDict.(Copy)), Htrust
      by congruence.
    destruct (FindActiveCopyable selectionManager (heap st)) as [target |];
      [| cbn; eauto].
    cbv zeta.
    destruct (fst (HandleCopy focusable target (clipboardData event) (heap st)));
      cbn; eauto.
  - apply OnCopy_untrusted; congruence.
Qed.

(** X13.  The wiring works only with the DOM names.  If a handler returns on
    an event that reached its slot through the slot's name, then the entry of
    [ClipboardDict] that the handler compares with is the DOM name of that
    event: with any other string there, every event the slot receives is
    rejected. *)
Theorem wired_handlers_need_the_DOM_names slot event st st' calls :
  slot_name slot = "on" ++ event.(type) ->
  documentElement ClipboardDict selectionManager focusable slot event st
  = (Normal tt, st', calls) ->
  match slot with
  | oncut => ClipboardDict.(Cut) = "cut"
  | onpaste => ClipboardDict.(Paste) = "paste"
  | oncopy => ClipboardDict.(Copy) = "copy"
  end.
Proof.
  intros Hname Hreturns.
  destruct slot; cbn in Hname; inversion Hname as [Hkind];
    unfold documentElement in Hreturns.
  - rewrite OnCut_outcome in Hreturns.
    destruct (strict_neq_spec event.(type) ClipboardDict.(Cut))
      as [[_ Heq] | [Hne _]]; [congruence |].
    rewrite Hne in Hreturns. discriminate.
  - rewrite OnPaste_outcome in Hreturns.
    destruct (strict_neq_spec event.(type) ClipboardDict.(Paste))
      as [[_ Heq] | [Hne _]]; [congruence |].
    rewrite Hne in Hreturns. discriminate.
  - rewrite OnCopy_outcome in Hreturns.
    destruct (strict_neq_spec event.(type) ClipboardDict.(Copy))
      as [[_ Heq] | [Hne _]]; [congruence |].
    rewrite Hne in Hreturns. discriminate.
Qed.

End Sequences.

(** ** The same on the two concrete pages *)

Module Tour.

Import Scenario.

(** The targets of [shapes] leave the store alone on a paste, and so does
    [OnPaste]. *)
Lemma OnPaste_keeps_the_store_witness :
  let event := event_of "paste" true (Some "D") in
  let st := page (Some "V") in
  (forall target dataToUse h,
      Data (snd (HandlePaste shapes target dataToUse h)) = Data h)
  /\ (let '(_, st', _) := OnPaste dom_dict (selection (Some "canvas")) shapes event st in
      Data (heap st') = Data (heap st)).
Proof.
  intros event st. split; [reflexivity |].
  apply (OnPaste_keeps_the_store
           dom_dict (selection (Some "canvas")) shapes event st).
  reflexivity.
Defined.

(** Nothing stored, nothing in the event: the canvas is handed [null]. *)
Lemma OnPaste_hands_null_only_when_both_are_null_witness :
  let event := event_of "paste" true None in
  let st := page None in
  In (call_HandlePaste "canvas" None)
     (snd (OnPaste dom_dict (selection (Some "canvas")) shapes event st))
  /\ (Data (heap st) = None /\ clipboardData event = None).
Proof.
  intros event st.
  assert (Hcalled : In (call_HandlePaste "canvas" None)
                       (snd (OnPaste dom_dict (selection (Some "canvas"))
                                     shapes event st)))
    by (cbn; auto).
  split; [exact Hcalled |].
  exact (OnPaste_hands_null_only_when_both_are_null
           dom_dict (selection (Some "canvas")) shapes event st "canvas" Hcalled).
Defined.

(** A cut with nothing to cut while the store holds "V", then a paste of "Y"
    into the canvas: the canvas gets "Y". *)
Lemma paste_after_a_copy_or_cut_without_target_witness :
  let cut := event_of "cut" true (Some "X") in
  let paste := event_of "paste" true (Some "Y") in
  let st := page (Some "V") in
  (isTrusted cut = true /\ type cut = Cut dom_dict
   /\ FindActiveCuttable Canvas.paste_only (heap st) = None)
  /\ (type paste = Paste dom_dict /\ isTrusted paste = true
      /\ FindActivePasteContainer Canvas.paste_only
           {| Data := None; world := world (heap st) |} = Some "canvas")
  /\ (OnCut dom_dict Canvas.paste_only shapes cut ;;
      OnPaste dom_dict Canvas.paste_only shapes paste) st
     = (Normal tt,
        {| heap := {| Data := None; world := ["paste Y into canvas"] |};
           defaultPrevented := true |},
        [call_FindActiveCuttable;
         call_FindActivePasteContainer;
         call_preventDefault;
         call_HandlePaste "canvas" (Some "Y")]).
Proof.
  intros cut paste st.
  split; [repeat split |]. split; [repeat split |].
  apply (proj2 (paste_after_a_copy_or_cut_without_target
                  dom_dict Canvas.paste_only shapes cut paste st "canvas"
                  eq_refl eq_refl eq_refl eq_refl));
    reflexivity.
Defined.

(** The clipboard changed to "X" outside; a paste event carrying "Y" then
    pastes "X". *)
Lemma paste_after_clipboard_change_witness :
  let change := event_of "clipboardchange" true (Some "X") in
  let paste := event_of "paste" true (Some "Y") in
  let st := page None in
  (type paste = Paste dom_dict /\ isTrusted paste = true
   /\ FindActivePasteContainer (selection (Some "canvas"))
        {| Data := clipboardData change; world := world (heap st) |}
      = Some "canvas")
  /\ (OnClipboardChange change ;;
      OnPaste dom_dict (selection (Some "canvas")) shapes paste) st
     = (Normal tt,
        {| heap := {| Data := Some "X"; world := ["paste X into canvas"] |};
           defaultPrevented := false |},
        [call_FindActivePasteContainer; call_HandlePaste "canvas" (Some "X")]).
Proof.
  intros change paste st. split; [repeat split |].
  apply (paste_after_clipboard_change
           dom_dict (selection (Some "canvas")) shapes change paste st "canvas");
    reflexivity.
Defined.


Lemma wired_handlers_get_their_own_events_witness :
  let trusted := event_of "copy" true (Some "D") in
  let untrusted := event_of "copy" false (Some "D") in
  let st := page None in
  (Copy dom_dict = "copy" /\ Cut dom_dict = "cut" /\ Paste dom_dict = "paste"
   /\ slot_name oncopy = "on" ++ type trusted
   /\ slot_name oncopy = "on" ++ type untrusted)
  /\ (exists rest,
        snd (documentElement dom_dict (selection (Some "circle")) brittle
                             oncopy trusted st)
        = call_FindActiveCopyable :: rest)
  /\ documentElement dom_dict (selection (Some "circle")) brittle oncopy untrusted st
     = (Throw UntrustedEvent, st, []).
Proof.
  intros trusted untrusted st. split; [repeat split |]. split.
  - apply (proj1 (wired_handlers_get_their_own_events
                    dom_dict (selection (Some "circle")) brittle oncopy trusted st
                    eq_refl eq_refl eq_refl eq_refl)).
    reflexivity.
  - apply (proj2 (wired_handlers_get_their_own_events
                    dom_dict (selection (Some "circle")) brittle oncopy untrusted st
                    eq_refl eq_refl eq_refl eq_refl)).
    reflexivity.
Defined.

Lemma wired_handlers_need_the_DOM_names_witness :
  let event := event_of "paste" true (Some "D") in
  let st := page (Some "V") in
  (slot_name onpaste = "on" ++ type event
   /\ documentElement dom_dict (selection None) shapes onpaste event st
      = (Normal tt, st, [call_FindActivePasteContainer]))
  /\ Paste dom_dict = "paste".
Proof.
  intros event st. split; [split; reflexivity |].
  apply (wired_handlers_need_the_DOM_names
           dom_dict (selection None) shapes onpaste event st
           st [call_FindActivePasteContainer]);
    reflexivity.
Defined.


(** The circle handles the copy, so the default action is prevented. *)
Lemma OnCopy_prevents_default_iff_delegated_witness :
  let event := event_of "copy" true (Some "D") in
  let st := page None in
  (type event = Copy dom_dict
   /\ isTrusted event = true
   /\ exists target,
       FindActiveCopyable (selection (Some "circle")) (heap st) = Some target
       /\ fst (HandleCopy shapes target (clipboardData event) (heap st))
          = Normal tt)
  /\ In call_preventDefault
        (snd (OnCopy dom_dict (selection (Some "circle")) shapes event st)).
Proof.
  intros event st.
  assert (Hdelegated :
            type event = Copy dom_dict
            /\ isTrusted event = true
            /\ exists target,
                FindActiveCopyable (selection (Some "circle")) (heap st)
                = Some target
                /\ fst (HandleCopy shapes target (clipboardData event) (heap st))
                   = Normal tt)
    by (split; [| split; [| exists "circle"; split]]; reflexivity).
  split; [exact Hdelegated |].
  pose proof (OnCopy_prevents_default_iff_delegated
                dom_dict (selection (Some "circle")) shapes event st)
    as Hiff.
  cbn in Hiff. destruct Hiff as [Hiff _]. apply Hiff. exact Hdelegated.
Defined.

(** The calls of a copy of the circle, when its method returns and when it
    throws. *)
Lemma handler_call_sequences_witness :
  let event := event_of "copy" true (Some "D") in
  let st := page None in
  (type event = Copy dom_dict /\ isTrusted event = true)
  /\ snd (OnCopy dom_dict (selection (Some "circle")) shapes event st)
     = [call_FindActiveCopyable;
        call_HandleCopy "circle" (Some "D");
        call_preventDefault]
  /\ snd (OnCopy dom_dict (selection (Some "circle")) brittle event st)
     = [call_FindActiveCopyable; call_HandleCopy "circle" (Some "D")].
Proof.
  intros event st. split; [split; reflexivity |].
  pose proof (handler_call_sequences
                dom_dict (selection (Some "circle")) shapes event st)
    as ((_ & Hreturns) & _).
  pose proof (handler_call_sequences
                dom_dict (selection (Some "circle")) brittle event st)
    as ((_ & Hthrows) & _).
  split.
  - exact (Hreturns eq_refl eq_refl).
  - exact (Hthrows eq_refl eq_refl).
Defined.

End Tour.
